(** * tutorial04_rllab: the notebook's configuration assembly and training glue

    The notebook [tutorials/tutorial04_rllab.ipynb] builds configuration
    objects through constructors of the flow library, registers two kinds of
    vehicles, and defines [run_task] and a per-seed launch loop that call into
    rllab.  Nothing in it computes: every statement either binds a module-level
    name or calls into a library.  The development therefore models

    - Python values as the notebook writes them ([value]);
    - every crossing into a library as an event ([call]) answered by an
      arbitrary library ([library]), which may return a value or raise;
    - the notebook's statements as a program over these events ([prog]),
      run by [exec], which threads the module namespace and records the trace
      of library calls.

    Statements about what the notebook passes to the libraries are proved for
    every library; statements about what a flow configuration object holds
    afterwards use [FlowParams], which is modelled from the specification
    because [flow/core/params.py] is not part of the sources.

    The cells name each callee by the name it was imported under; the import
    statements themselves are not modelled.  [Resolved] gives [run_task] with
    the lookups of its callees, for the statements about the names it
    reads. *)

From Stdlib Require Import ZArith List PrimFloat.
From stdpp Require Import base option list gmap strings.

Set Warnings "-inexact-float,-register-all".
Local Open Scope Z_scope.
Local Open Scope string_scope.

(** ** Python values *)

(** A library object is known to the notebook only by its reference. *)
Definition loc := nat.

Inductive value : Type :=
| VNone
| VBool (b : bool)
| VInt (n : Z)
| VFloat (x : float)
| VStr (s : string)
| VTuple (items : list value)
| VList (items : list value)
| VDict (items : list (string * value))
| VName (qualname : string)
| VFun (name : string)
| VRef (l : loc).

(** [VName] is an imported class, function or module, [VFun] a function the
    notebook defines with [def], [VRef] an object created by a library.
    A float literal is the binary64 number Python reads it as. *)

(** A raised Python exception: its class and its argument. *)
Record exn : Type := Exn { exn_class : string; exn_arg : string }.

Definition NameError (x : string) : exn := Exn "NameError" x.

(** ** Crossings into a library *)

(** [Apply f args kwargs] is the call of an imported callable [f] with the
    positional arguments [args] and the keyword arguments [kwargs],
    [Method o m args kwargs] the method call [o.m] with the same two kinds of
    arguments, and [Attr o a] the attribute read [o.a].  The notebook never
    rebinds an imported name, so a callee is identified by the name it was
    imported under. *)
Inductive call : Type :=
| Apply (callee : string) (args : list value) (kwargs : list (string * value))
| Method (recv : value) (meth : string) (args : list value)
         (kwargs : list (string * value))
| Attr (recv : value) (attr : string).

Definition outcome : Type := exn + value.

(** One entry of the trace: the call and what the library answered. *)
Definition event : Type := call * outcome.

(** A library answers a call from its own state [W]. *)
Definition library (W : Type) : Type := call -> W -> outcome * W.

(** ** Programs *)

(** [Load] and [Store] read and bind a module-level name, [Ext] calls into
    a library, and [Try] is [try: body / except: handler].  The notebook never
    uses [Try]; it is part of the language so that its absence can be stated
    ([handler_free]) and so that the propagation of errors is a property of
    the notebook and not of the language. *)
Inductive prog : Type :=
| Ret (v : value)
| Load (x : string) (k : value -> prog)
| Store (x : string) (v : value) (k : prog)
| Ext (c : call) (k : value -> prog)
| Try (body : prog) (handler : exn -> prog) (k : value -> prog).

Fixpoint bind (p : prog) (f : value -> prog) : prog :=
  match p with
  | Ret v => f v
  | Load x k => Load x (fun v => bind (k v) f)
  | Store x v k => Store x v (bind k f)
  | Ext c k => Ext c (fun v => bind (k v) f)
  | Try b h k => Try b h (fun v => bind (k v) f)
  end.

Declare Scope prog_scope.
Delimit Scope prog_scope with prog.
Bind Scope prog_scope with prog.
Notation "x <- p ;; q" := (bind p (fun x => q))
  (at level 100, p at next level, right associativity) : prog_scope.
Notation "p ;; q" := (bind p (fun _ => q))
  (at level 100, right associativity) : prog_scope.
Local Open Scope prog_scope.

(** Statement forms of the notebook. *)
Definition load (x : string) : prog := Load x Ret.
Definition ext (c : call) : prog := Ext c Ret.
Definition assign (x : string) (rhs : prog) : prog :=
  v <- rhs ;; Store x v (Ret VNone).

(** [for x in items: body], with [x] a module-level name as in the notebook. *)
Fixpoint for_each (x : string) (items : list value) (body : prog) : prog :=
  match items with
  | [] => Ret VNone
  | v :: rest => Store x v (body ;; for_each x rest body)
  end.

(** A program without any [try]. *)
Fixpoint handler_free (p : prog) : Prop :=
  match p with
  | Ret _ => True
  | Load _ k => forall v, handler_free (k v)
  | Store _ _ k => handler_free k
  | Ext _ k => forall v, handler_free (k v)
  | Try _ _ _ => False
  end.

(** ** Running a program against a library *)

Record run (W : Type) : Type := Run {
  result : outcome;
  globals : gmap string value;
  world : W;
  trace : list event
}.
Arguments Run {W} _ _ _ _.
Arguments result {W} _.
Arguments globals {W} _.
Arguments world {W} _.
Arguments trace {W} _.

Definition after {W : Type} (t : list event) (r : run W) : run W :=
  Run (result r) (globals r) (world r) (t ++ trace r)%list.

Section Exec.
Context {W : Type} (lib : library W).

Fixpoint exec (p : prog) (g : gmap string value) (w : W) : run W :=
  match p with
  | Ret v => Run (inr v) g w []
  | Load x k =>
      match g !! x with
      | Some v => exec (k v) g w
      | None => Run (inl (NameError x)) g w []
      end
  | Store x v k => exec k (<[x:=v]> g) w
  | Ext c k =>
      let '(o, w') := lib c w in
      match o with
      | inl e => Run (inl e) g w' [(c, o)]
      | inr v => after [(c, o)] (exec (k v) g w')
      end
  | Try b h k =>
      let rb := exec b g w in
      match result rb with
      | inr v => after (trace rb) (exec (k v) (globals rb) (world rb))
      | inl e =>
          let rh := exec (h e) (globals rb) (world rb) in
          match result rh with
          | inr v =>
              after (trace rb ++ trace rh)%list
                    (exec (k v) (globals rh) (world rh))
          | inl e' =>
              Run (inl e') (globals rh) (world rh) (trace rb ++ trace rh)%list
          end
      end
  end.
End Exec.

(** The calls of a trace, and the errors the library raised in it. *)
Definition calls (t : list event) : list call := map fst t.

Definition raised (t : list event) : list exn :=
  omap (fun ev => match snd ev with inl e => Some e | inr _ => None end) t.

Definition completed {W : Type} (r : run W) : Prop :=
  exists v, result r = inr v.

(** ** The notebook, cell by cell *)

Section Notebook.
(** [from flow.scenarios.loop import ADDITIONAL_NET_PARAMS]: a constant of
    [flow/scenarios/loop.py], which is not part of the sources. *)
Variable ADDITIONAL_NET_PARAMS : value.

(** Scenario parameters. *)
Definition cell_scenario_parameters : prog :=
  assign "name" (Ret (VStr "training_example")) ;;
  assign "net_params"
    (ext (Apply "NetParams" []
            [("additional_params", ADDITIONAL_NET_PARAMS)])) ;;
  assign "initial_config"
    (ext (Apply "InitialConfig" []
            [("spacing", VStr "uniform"); ("perturbation", VInt 1)])) ;;
  assign "traffic_lights" (ext (Apply "TrafficLightParams" [] [])).

(** [vehicles = VehicleParams()] *)
Definition new_vehicles : prog :=
  assign "vehicles" (ext (Apply "VehicleParams" [] [])).

(** [vehicles.add("human", ...)]: the identifier is passed by position. *)
Definition add_human : prog :=
  vehicles <- load "vehicles" ;;
  ext (Method vehicles "add" [VStr "human"]
         [("acceleration_controller",
            VTuple [VName "IDMController"; VDict []]);
          ("routing_controller",
            VTuple [VName "ContinuousRouter"; VDict []]);
          ("num_vehicles", VInt 21)]).

(** [vehicles.add(veh_id="rl", ...)] *)
Definition add_rl : prog :=
  vehicles <- load "vehicles" ;;
  ext (Method vehicles "add" []
         [("veh_id", VStr "rl");
          ("acceleration_controller",
            VTuple [VName "RLController"; VDict []]);
          ("routing_controller",
            VTuple [VName "ContinuousRouter"; VDict []]);
          ("num_vehicles", VInt 1)]).

(** [scenario = LoopScenario(...)] *)
Definition cell_scenario : prog :=
  assign "scenario"
    (vehicles <- load "vehicles" ;;
     net_params <- load "net_params" ;;
     initial_config <- load "initial_config" ;;
     traffic_lights <- load "traffic_lights" ;;
     ext (Apply "LoopScenario" []
            [("name", VStr "ring_example");
             ("vehicles", vehicles);
             ("net_params", net_params);
             ("initial_config", initial_config);
             ("traffic_lights", traffic_lights)])).

(** [sumo_params = SumoParams(sim_step=0.1, render=False)] *)
Definition cell_sumo_params : prog :=
  assign "sumo_params"
    (ext (Apply "SumoParams" []
            [("sim_step", VFloat 0.1); ("render", VBool false)])).

(** [env_params = EnvParams(horizon=100, additional_params={...})] *)
Definition cell_env_params : prog :=
  assign "env_params"
    (ext (Apply "EnvParams" []
            [("horizon", VInt 100);
             ("additional_params",
               VDict [("max_accel", VInt 1);
                      ("max_decel", VInt 1);
                      ("ring_length", VList [VInt 220; VInt 270])])])).

(** [print(flowenvs.__all__)] *)
Definition cell_print_envs : prog :=
  names <- ext (Attr (VName "flow.envs") "__all__") ;;
  ext (Apply "print" [names] []).

(** [env_name = ...] and [pass_params = (env_name, sumo_params, ...)] *)
Definition cell_pass_params : prog :=
  assign "env_name" (Ret (VStr "WaveAttenuationPOEnv")) ;;
  assign "pass_params"
    (env_name <- load "env_name" ;;
     sumo_params <- load "sumo_params" ;;
     vehicles <- load "vehicles" ;;
     env_params <- load "env_params" ;;
     net_params <- load "net_params" ;;
     initial_config <- load "initial_config" ;;
     scenario <- load "scenario" ;;
     Ret (VTuple [env_name; sumo_params; vehicles; env_params; net_params;
                  initial_config; scenario])).

(** The body of [run_task], declared with a single starred parameter [_]:
    it accepts any positional arguments and ignores them.
    [env_name] and [pass_params] are module-level names read when the body
    runs; [env], [horizon], [policy], [baseline] and [algo] are locals.  The
    last statement is [algo.train(),]: a one-element tuple that is dropped. *)
Definition run_task (_ : list value) : prog :=
  env_name <- load "env_name" ;;
  pass_params <- load "pass_params" ;;
  env <- ext (Apply "GymEnv" [env_name]
                [("record_video", VBool false);
                 ("register_params", pass_params)]) ;;
  horizon <- ext (Attr env "horizon") ;;
  env <- ext (Apply "normalize" [env] []) ;;
  spec <- ext (Attr env "spec") ;;
  policy <- ext (Apply "GaussianMLPPolicy" []
                   [("env_spec", spec);
                    ("hidden_sizes", VTuple [VInt 32; VInt 32])]) ;;
  spec <- ext (Attr env "spec") ;;
  baseline <- ext (Apply "LinearFeatureBaseline" [] [("env_spec", spec)]) ;;
  algo <- ext (Apply "TRPO" []
                 [("env", env);
                  ("policy", policy);
                  ("baseline", baseline);
                  ("batch_size", VInt 1000);
                  ("max_path_length", horizon);
                  ("discount", VFloat 0.999);
                  ("n_itr", VInt 1)]) ;;
  trained <- ext (Method algo "train" [] []) ;;
  (let _ := VTuple [trained] in Ret VNone).

(** The [def] statement binds the function object to [run_task]. *)
Definition cell_def_run_task : prog :=
  assign "run_task" (Ret (VFun "run_task")).

(** The call [run_experiment_lite(run_task, n_parallel=1, ...)] of the loop
    body, for the values its two names evaluate to. *)
Definition launch_call (run_task_fn seed : value) : call :=
  Apply "run_experiment_lite" [run_task_fn]
    [("n_parallel", VInt 1);
     ("snapshot_mode", VStr "all");
     ("seed", seed);
     ("mode", VStr "local");
     ("exp_prefix", VStr "training_example")].

(** The body of the loop. *)
Definition launch : prog :=
  run_task_fn <- load "run_task" ;;
  seed <- load "seed" ;;
  ext (launch_call run_task_fn seed).

(** [for seed in seeds: run_experiment_lite(...)] *)
Definition launch_loop (seeds : list value) : prog :=
  for_each "seed" seeds launch.

(** The seed list of the notebook is [[5]]; [20] and [68] are commented
    out in the source. *)
Definition seeds : list value := [VInt 5].

Definition cell_launch : prog := launch_loop seeds.

(** The cells before [run_task] is defined, in notebook order. *)
Definition configuration : prog :=
  cell_scenario_parameters ;;
  new_vehicles ;;
  add_human ;;
  add_rl ;;
  cell_scenario ;;
  cell_sumo_params ;;
  cell_env_params ;;
  cell_print_envs ;;
  cell_pass_params.

Definition notebook : prog :=
  configuration ;;
  cell_def_run_task ;;
  cell_launch.
End Notebook.

(** ** Reading calls *)

(** The value bound to key [k] in keyword arguments or in a dict literal:
    the first binding, as both are written without duplicates. *)
Fixpoint assoc (k : string) (kvs : list (string * value)) : option value :=
  match kvs with
  | [] => None
  | (k', v) :: rest => if String.eqb k k' then Some v else assoc k rest
  end.

Definition keys (kvs : list (string * value)) : list string := map fst kvs.

Definition callee_is (f : string) (c : call) : bool :=
  match c with
  | Apply f' _ _ => String.eqb f f'
  | _ => false
  end.

Definition is_method_call (c : call) : bool :=
  match c with
  | Method _ _ _ _ => true
  | _ => false
  end.

Definition kwargs_of (c : call) : list (string * value) :=
  match c with
  | Apply _ _ kw | Method _ _ _ kw => kw
  | Attr _ _ => []
  end.

Definition args_of (c : call) : list value :=
  match c with
  | Apply _ a _ | Method _ _ a _ => a
  | Attr _ _ => []
  end.

(** The calls of a trace to the callable [f]. *)
Definition calls_to (f : string) (t : list event) : list call :=
  List.filter (callee_is f) (calls t).

(** The method calls of a trace. *)
Definition method_calls (t : list event) : list call :=
  List.filter is_method_call (calls t).

(** What the library returned from its calls to the callable [f]. *)
Definition answers_of (f : string) (t : list event) : list value :=
  omap (fun ev => match snd ev with
                  | inr v => if callee_is f (fst ev) then Some v else None
                  | inl _ => None
                  end) t.

(** ** Library doubles *)

(** A library that never raises: it answers the attribute [horizon] with
    [h] and every other call with a fresh reference. *)
Definition quiet_lib (h : value) : library nat := fun c n =>
  match c with
  | Attr _ a => if String.eqb a "horizon" then (inr h, n)
                else (inr (VRef n), S n)
  | _ => (inr (VRef n), S n)
  end.

(** A library that raises [e] on every call to the callable [f] and is
    quiet otherwise. *)
Definition failing_lib (f : string) (e : exn) : library nat := fun c n =>
  if callee_is f c then (inl e, n) else quiet_lib (VInt 100) c n.

(** ** The flow configuration classes *)

Module FlowParams.

(** Modelled from the spec: the entry of the vehicle registry.
    [flow/core/params.py], which defines [VehicleParams], is not part of the
    sources; section 6 of the specification gives an entry the fields
    [veh_id], [acceleration_controller], [routing_controller] and
    [num_vehicles], and section 3 describes it as an identifier, an
    acceleration-strategy reference, a routing-strategy reference and a
    count. *)
Record VehicleEntry : Type := {
  veh_id : string;
  acceleration_controller : value;
  routing_controller : value;
  num_vehicles : Z
}.

(** Modelled from the spec: the objects of the flow library.  A
    configuration record is a flat mapping of named values; the vehicle
    registry is an ordered list of entries (section 3).  Every other object
    is opaque. *)
Inductive object : Type :=
| Config (cls : string) (fields : list (string * value))
| Registry (entries : list VehicleEntry)
| Opaque (cls : string).

(** The objects live in a store and are shared by reference. *)
Definition store : Type := list object.

Definition alloc (o : object) (st : store) : outcome * store :=
  (inr (VRef (length st)), (st ++ [o])%list).

(** Modelled from the spec: the parameters of [VehicleParams.add], in the
    order of section 6. *)
Definition add_parameters : list string :=
  ["veh_id"; "acceleration_controller"; "routing_controller";
   "num_vehicles"].

(** Python's binding of positional arguments to the leading parameters. *)
Fixpoint bind_positional (params : list string) (args : list value)
  : option (list (string * value) * list string) :=
  match args, params with
  | [], _ => Some ([], params)
  | _ :: _, [] => None
  | a :: args', p :: params' =>
      match bind_positional params' args' with
      | Some (b, rest) => Some ((p, a) :: b, rest)
      | None => None
      end
  end.

(** Keyword arguments may only name the remaining parameters, once each. *)
Definition bind_args (params : list string) (args : list value)
    (kwargs : list (string * value)) : option (list (string * value)) :=
  match bind_positional params args with
  | Some (b, rest) =>
      if forallb (fun k => bool_decide (k ∈ rest)) (keys kwargs)
         && bool_decide (NoDup (keys kwargs))
      then Some (b ++ kwargs)%list
      else None
  | None => None
  end.

Definition entry_of (b : list (string * value)) : option VehicleEntry :=
  match assoc "veh_id" b, assoc "acceleration_controller" b,
        assoc "routing_controller" b, assoc "num_vehicles" b with
  | Some (VStr id), Some acc, Some rout, Some (VInt n) =>
      Some {| veh_id := id; acceleration_controller := acc;
              routing_controller := rout; num_vehicles := n |}
  | _, _, _, _ => None
  end.

(** Modelled from the spec: the classes whose instances are configuration
    records (sections 3 and 6). *)
Definition config_classes : list string :=
  ["NetParams"; "InitialConfig"; "TrafficLightParams"; "SumoParams";
   "EnvParams"].

(** Modelled from the spec: what the flow classes do with a call.
    [VehicleParams()] creates an empty registry and [add] appends one entry
    to it; a configuration class stores its keyword arguments; a library
    call receives records by value, so no other call changes a stored
    object.  The builtin [print] returns [None]. *)
Definition flow : library store := fun c st =>
  match c with
  | Apply cls args kwargs =>
      if String.eqb cls "VehicleParams" then alloc (Registry []) st
      else if String.eqb cls "print" then (inr VNone, st)
      else if bool_decide (cls ∈ config_classes) then
        match args with
        | [] => alloc (Config cls kwargs) st
        | _ :: _ => (inl (Exn "TypeError" cls), st)
        end
      else alloc (Opaque cls) st
  | Method (VRef l) meth args kwargs =>
      match st !! l with
      | Some (Registry entries) =>
          if String.eqb meth "add" then
            match bind_args add_parameters args kwargs ≫= entry_of with
            | Some e => (inr VNone, <[l := Registry (entries ++ [e])%list]> st)
            | None => (inl (Exn "TypeError" meth), st)
            end
          else (inl (Exn "AttributeError" meth), st)
      | _ => (inr VNone, st)
      end
  | Method _ _ _ _ => (inr VNone, st)
  | Attr (VRef l) a =>
      match st !! l with
      | Some (Config _ fields) =>
          match assoc a fields with
          | Some v => (inr v, st)
          | None => (inl (Exn "AttributeError" a), st)
          end
      | _ => (inr VNone, st)
      end
  | Attr _ _ => (inr VNone, st)
  end.

(** The registry an object reference denotes. *)
Definition registry_at (st : store) (o : option value)
  : option (list VehicleEntry) :=
  match o with
  | Some (VRef l) =>
      match st !! l with
      | Some (Registry entries) => Some entries
      | _ => None
      end
  | _ => None
  end.

Definition total_vehicles (entries : list VehicleEntry) : Z :=
  fold_right Z.add 0 (map num_vehicles entries).

End FlowParams.

(** ** Concrete inputs *)

(** Modelled from the spec: a value for the imported constant
    [ADDITIONAL_NET_PARAMS], of the shape section 3 of the specification
    gives the network parameters (a ring length and a lane count).  It is
    used only where a concrete input is needed. *)
Definition loop_net_params : value :=
  VDict [("length", VInt 230); ("lanes", VInt 1)].

(** The configuration cells run in a fresh kernel against the quiet
    library, and the module namespace they leave. *)
Definition quiet_configuration : run nat :=
  exec (quiet_lib (VInt 100)) (configuration loop_net_params) ∅ 0%nat.

Definition configured : gmap string value := globals quiet_configuration.

(** The ring-length range held by an [additional_params] mapping. *)
Definition ring_length_of (additional : option value) : option value :=
  match additional with
  | Some (VDict items) => assoc "ring_length" items
  | _ => None
  end.

(** ** The names a program reads and binds *)




(** ** [run_task] with its name lookups *)

(** [run_task] above identifies each callee by the name it was imported
    under.  Python looks the callee up, as a module-level name, each time the
    body runs, before it evaluates the arguments.  The definitions below keep
    these lookups; a namespace stands for the module's names with the
    builtins behind them. *)
Module Resolved.

(** The call of the object a name evaluated to: the imported callable when
    the object is one, the object's own [__call__] otherwise. *)
Definition apply_value (f : value) (args : list value)
    (kwargs : list (string * value)) : call :=
  match f with
  | VName callee => Apply callee args kwargs
  | _ => Method f "__call__" args kwargs
  end.

(** The body of [run_task], every name read where the source reads it. *)
Definition run_task (_ : list value) : prog :=
  GymEnv <- load "GymEnv" ;;
  env_name <- load "env_name" ;;
  pass_params <- load "pass_params" ;;
  env <- ext (apply_value GymEnv [env_name]
                [("record_video", VBool false);
                 ("register_params", pass_params)]) ;;
  horizon <- ext (Attr env "horizon") ;;
  normalize <- load "normalize" ;;
  env <- ext (apply_value normalize [env] []) ;;
  GaussianMLPPolicy <- load "GaussianMLPPolicy" ;;
  spec <- ext (Attr env "spec") ;;
  policy <- ext (apply_value GaussianMLPPolicy []
                   [("env_spec", spec);
                    ("hidden_sizes", VTuple [VInt 32; VInt 32])]) ;;
  LinearFeatureBaseline <- load "LinearFeatureBaseline" ;;
  spec <- ext (Attr env "spec") ;;
  baseline <- ext (apply_value LinearFeatureBaseline []
                     [("env_spec", spec)]) ;;
  TRPO <- load "TRPO" ;;
  algo <- ext (apply_value TRPO []
                 [("env", env);
                  ("policy", policy);
                  ("baseline", baseline);
                  ("batch_size", VInt 1000);
                  ("max_path_length", horizon);
                  ("discount", VFloat 0.999);
                  ("n_itr", VInt 1)]) ;;
  trained <- ext (Method algo "train" [] []) ;;
  (let _ := VTuple [trained] in Ret VNone).

(** The names the cell of [run_task] imports, in the order of its import
    lines, and the namespace [g] with each of them bound to the callable it
    was imported as. *)
Definition rllab_imports : list string :=
  ["TRPO"; "LinearFeatureBaseline"; "GaussianMLPPolicy"; "normalize";
   "GymEnv"].

Definition with_imports (g : gmap string value) : gmap string value :=
  foldr (fun n => <[n := VName n]>) g rllab_imports.

End Resolved.

(** The events of a trace before its last one. *)
Definition before_last (t : list event) : list event := removelast t.

(** * Properties *)

(** ** Running programs: general facts *)

Ltac lookups :=
  repeat (rewrite lookup_insert_eq || rewrite lookup_insert_ne by discriminate).

(** Case analysis on the answer of the next library call. *)
Ltac ask lib :=
  lookups;
  match goal with
  | |- context [lib ?c ?w] =>
      let e := fresh "e" in let v := fresh "v" in
      let w' := fresh "w" in let E := fresh "E" in
      destruct (lib c w) as [[e|v] w'] eqn:E;
      cbn [after result trace globals world app exec bind]
  end.

(** A branch where the library raised cannot belong to a completed run. *)
Ltac raise_ends :=
  let H := fresh in
  intros -> H; cbn [after result] in H; discriminate H.

Section Generic.
Context {W : Type} (lib : library W).

Lemma after_after (t1 t2 : list event) (r : run W) :
  after t1 (after t2 r) = after (t1 ++ t2)%list r.
Proof. unfold after; cbn. by rewrite app_assoc. Qed.

Lemma after_nil (r : run W) : after [] r = r.
Proof. by destruct r. Qed.

Lemma trace_after (t : list event) (r : run W) :
  trace (after t r) = (t ++ trace r)%list.
Proof. reflexivity. Qed.

Lemma result_after (t : list event) (r : run W) :
  result (after t r) = result r.
Proof. reflexivity. Qed.

Lemma globals_after (t : list event) (r : run W) :
  globals (after t r) = globals r.
Proof. reflexivity. Qed.

(** Running [bind p f] is running [p] and, when it returns, [f] on its
    result from the state [p] left. *)
Lemma exec_bind (p : prog) (f : value -> prog) g w :
  exec lib (bind p f) g w =
  let rp := exec lib p g w in
  match result rp with
  | inl e => rp
  | inr v => after (trace rp) (exec lib (f v) (globals rp) (world rp))
  end.
Proof.
  revert g w. induction p as [v|x k IH|x v k IH|c k IH|b IHb h IHh k IH];
    intros g w; cbn [bind exec].
  - cbn. by rewrite after_nil.
  - destruct (g !! x); [apply IH | done].
  - apply IH.
  - destruct (lib c w) as [[e|v] w']; [done|].
    rewrite IH. cbn. destruct (result (exec lib (k v) g w')); [done|].
    by rewrite after_after.
  - destruct (result (exec lib b g w)) as [e|v].
    + destruct (result (exec lib (h e) _ _)) as [e'|v]; [done|].
      rewrite IH. cbn. destruct (result (exec lib (k v) _ _)); [done|].
      by rewrite after_after.
    + rewrite IH. cbn. destruct (result (exec lib (k v) _ _)); [done|].
      by rewrite after_after.
Qed.

(** Without a [try], an error raised by the library is the result. *)
Lemma handler_free_propagates (p : prog) g w e :
  handler_free p ->
  In e (raised (trace (exec lib p g w))) ->
  result (exec lib p g w) = inl e.
Proof.
  revert g w. induction p as [v|x k IH|x v k IH|c k IH|b IHb h IHh k IH];
    intros g w Hfree; cbn [exec handler_free] in *.
  - intros [].
  - destruct (g !! x); [by apply IH | intros []].
  - by apply IH.
  - destruct (lib c w) as [[e0|v] w']; cbn.
    + intros [->|[]]; done.
    + by apply IH.
  - destruct Hfree.
Qed.
End Generic.

Lemma handler_free_bind (p : prog) (f : value -> prog) :
  handler_free p -> (forall v, handler_free (f v)) -> handler_free (bind p f).
Proof.
  intros Hp Hf. induction p as [v|x k IH|x v k IH|c k IH|b IHb h IHh k IH];
    cbn in *; auto.
Qed.

Lemma handler_free_for_each x items body :
  handler_free body -> handler_free (for_each x items body).
Proof.
  intros Hb. induction items as [|v rest IH]; cbn; [done|].
  apply handler_free_bind; auto.
Qed.

(** With a [try] the error does not reach the caller: the language can
    catch, the notebook does not. *)
Lemma try_catches (e : exn) :
  let r := exec (failing_lib "GymEnv" e)
                (Try (ext (Apply "GymEnv" [] [])) (fun _ => Ret VNone) Ret)
                ∅ 0%nat in
  raised (trace r) = [e] /\ result r = inr VNone.
Proof. by cbn. Qed.

(** ** The model on concrete inputs *)

(** Run in an empty namespace, [run_task] stops at the first name it
    reads, its first callee, before any library call. *)
Example run_task_unconfigured :
  let r := exec (quiet_lib (VInt 100)) (Resolved.run_task []) ∅ 0%nat in
  result r = inl (NameError "GymEnv") /\ trace r = [].
Proof. by cbn. Qed.

(** The positional identifier of the first [add] call is bound to
    [veh_id]. *)
Example bind_args_human :
  FlowParams.bind_args FlowParams.add_parameters [VStr "human"]
    [("acceleration_controller", VTuple [VName "IDMController"; VDict []]);
     ("routing_controller", VTuple [VName "ContinuousRouter"; VDict []]);
     ("num_vehicles", VInt 21)]
  = Some [("veh_id", VStr "human");
          ("acceleration_controller",
            VTuple [VName "IDMController"; VDict []]);
          ("routing_controller", VTuple [VName "ContinuousRouter"; VDict []]);
          ("num_vehicles", VInt 21)].
Proof. reflexivity. Qed.

(** An identifier given both by position and by keyword is rejected. *)
Example bind_args_twice :
  FlowParams.bind_args FlowParams.add_parameters [VStr "human"]
    [("veh_id", VStr "rl")] = None.
Proof. reflexivity. Qed.

(** With the notebook's seed list the launcher is called even when it
    raises, and the error is the result of the cell. *)
Example launch_raises (e : exn) :
  let r := exec (failing_lib "run_experiment_lite" e)
             (cell_def_run_task ;; cell_launch) ∅ 0%nat in
  result r = inl e
  /\ calls (trace r) = [launch_call (VFun "run_task") (VInt 5)].
Proof. by cbn. Qed.

(** ** The configuration cells against any library *)

(** A run of the configuration cells that completes made exactly these
    eleven library calls, in this order, and left these bindings. *)
Lemma configuration_completed {W : Type} (lib : library W) K g w :
  completed (exec lib (configuration K) g w) ->
  exists net ic tl veh added1 added2 sc sumo envp names printed,
    trace (exec lib (configuration K) g w) =
      [(Apply "NetParams" [] [("additional_params", K)], inr net);
       (Apply "InitialConfig" []
          [("spacing", VStr "uniform"); ("perturbation", VInt 1)], inr ic);
       (Apply "TrafficLightParams" [] [], inr tl);
       (Apply "VehicleParams" [] [], inr veh);
       (Method veh "add" [VStr "human"]
          [("acceleration_controller",
             VTuple [VName "IDMController"; VDict []]);
           ("routing_controller",
             VTuple [VName "ContinuousRouter"; VDict []]);
           ("num_vehicles", VInt 21)], inr added1);
       (Method veh "add" []
          [("veh_id", VStr "rl");
           ("acceleration_controller",
             VTuple [VName "RLController"; VDict []]);
           ("routing_controller",
             VTuple [VName "ContinuousRouter"; VDict []]);
           ("num_vehicles", VInt 1)], inr added2);
       (Apply "LoopScenario" []
          [("name", VStr "ring_example"); ("vehicles", veh);
           ("net_params", net); ("initial_config", ic);
           ("traffic_lights", tl)], inr sc);
       (Apply "SumoParams" []
          [("sim_step", VFloat 0.1); ("render", VBool false)], inr sumo);
       (Apply "EnvParams" []
          [("horizon", VInt 100);
           ("additional_params",
             VDict [("max_accel", VInt 1); ("max_decel", VInt 1);
                    ("ring_length", VList [VInt 220; VInt 270])])],
        inr envp);
       (Attr (VName "flow.envs") "__all__", inr names);
       (Apply "print" [names] [], inr printed)]
    /\ globals (exec lib (configuration K) g w) !! "env_name"
         = Some (VStr "WaveAttenuationPOEnv")
    /\ globals (exec lib (configuration K) g w) !! "pass_params"
         = Some (VTuple [VStr "WaveAttenuationPOEnv"; sumo; veh; envp; net;
                         ic; sc])
    /\ globals (exec lib (configuration K) g w) !! "net_params" = Some net
    /\ globals (exec lib (configuration K) g w) !! "initial_config" = Some ic
    /\ globals (exec lib (configuration K) g w) !! "vehicles" = Some veh
    /\ globals (exec lib (configuration K) g w) !! "scenario" = Some sc
    /\ globals (exec lib (configuration K) g w) !! "sumo_params" = Some sumo
    /\ globals (exec lib (configuration K) g w) !! "env_params" = Some envp.
Proof.
  remember (exec lib (configuration K) g w) as R eqn:HR.
  intros [r Hr]. revert HR Hr.
  unfold configuration, cell_scenario_parameters, new_vehicles, add_human,
    add_rl, cell_scenario, cell_sumo_params, cell_env_params, cell_print_envs,
    cell_pass_params, assign, load, ext.
  cbn [bind exec].
  repeat (ask lib; [by raise_ends|]).
  lookups. cbn [exec].
  intros -> _. cbn [after result trace globals world app].
  do 11 eexists. split; [reflexivity|]. lookups. done.
Qed.

(** ** [run_task] against any library *)

(** A run of [run_task] that completes made exactly these nine library
    calls, in this order. *)
Lemma run_task_completed {W : Type} (lib : library W) g w args name pp :
  g !! "env_name" = Some name ->
  g !! "pass_params" = Some pp ->
  completed (exec lib (run_task args) g w) ->
  exists env horizon nenv spec policy spec' baseline algo trained,
    trace (exec lib (run_task args) g w) =
      [(Apply "GymEnv" [name]
          [("record_video", VBool false); ("register_params", pp)], inr env);
       (Attr env "horizon", inr horizon);
       (Apply "normalize" [env] [], inr nenv);
       (Attr nenv "spec", inr spec);
       (Apply "GaussianMLPPolicy" []
          [("env_spec", spec); ("hidden_sizes", VTuple [VInt 32; VInt 32])],
        inr policy);
       (Attr nenv "spec", inr spec');
       (Apply "LinearFeatureBaseline" [] [("env_spec", spec')],
        inr baseline);
       (Apply "TRPO" []
          [("env", nenv); ("policy", policy); ("baseline", baseline);
           ("batch_size", VInt 1000); ("max_path_length", horizon);
           ("discount", VFloat 0.999); ("n_itr", VInt 1)], inr algo);
       (Method algo "train" [] [], inr trained)].
Proof.
  intros Hn Hp.
  remember (exec lib (run_task args) g w) as R eqn:HR.
  intros [r Hr]. revert HR Hr.
  unfold run_task, load, ext. cbn [bind exec]. rewrite Hn, Hp.
  repeat (ask lib; [by raise_ends|]).
  intros -> _. cbn [after result trace globals world app]. repeat eexists.
Qed.

(** ** Simulation and environment parameters *)

(** C4: in a completed run of the configuration cells, against any library,
    [SumoParams] is called once, with exactly the keyword arguments
    [sim_step = 0.1] and [render = False], and [EnvParams] is called once,
    with [horizon = 100], a positive integer, and an [additional_params]
    mapping whose keys are exactly [max_accel] (1), [max_decel] (1) and
    [ring_length] ([[220, 270]]). *)
Theorem sumo_and_env_params_fields {W : Type} (lib : library W) K g w :
  completed (exec lib (configuration K) g w) ->
  let t := trace (exec lib (configuration K) g w) in
  (exists c,
      calls_to "SumoParams" t = [c]
      /\ args_of c = []
      /\ keys (kwargs_of c) = ["sim_step"; "render"]
      /\ assoc "sim_step" (kwargs_of c) = Some (VFloat 0.1)
      /\ assoc "render" (kwargs_of c) = Some (VBool false))
  /\ (exists c n items,
      calls_to "EnvParams" t = [c]
      /\ args_of c = []
      /\ keys (kwargs_of c) = ["horizon"; "additional_params"]
      /\ assoc "horizon" (kwargs_of c) = Some (VInt n)
      /\ n = 100 /\ 0 < n
      /\ assoc "additional_params" (kwargs_of c) = Some (VDict items)
      /\ keys items = ["max_accel"; "max_decel"; "ring_length"]
      /\ assoc "max_accel" items = Some (VInt 1)
      /\ assoc "max_decel" items = Some (VInt 1)
      /\ assoc "ring_length" items = Some (VList [VInt 220; VInt 270])).
Proof.
  intros Hc t; subst t.
  destruct (configuration_completed lib K g w Hc)
    as (net & ic & tl & veh & a1 & a2 & sc & sumo & envp & names & printed
        & -> & _).
  split.
  - eexists. split; [vm_compute; reflexivity|]. by vm_compute.
  - do 3 eexists. split; [vm_compute; reflexivity|]. by vm_compute.
Qed.

Lemma sumo_and_env_params_fields_witness :
  completed quiet_configuration
  /\ exists c,
      calls_to "SumoParams" (trace quiet_configuration) = [c]
      /\ assoc "sim_step" (kwargs_of c) = Some (VFloat 0.1).
Proof.
  assert (Hc : completed quiet_configuration)
    by (exists VNone; vm_compute; reflexivity).
  split; [exact Hc|].
  unfold quiet_configuration in Hc.
  destruct (sumo_and_env_params_fields _ _ _ _ Hc)
    as [(c & H1 & _ & _ & H2 & _) _].
  exists c. split; [exact H1 | exact H2].
Defined.

(** ** Where the ring-length range lives *)

(** C5, as the code has it: in a completed run of the configuration cells,
    against any library, [NetParams] receives the imported constant
    [ADDITIONAL_NET_PARAMS] unchanged as its only argument, and the
    ring-length range [[220, 270]] is the [ring_length] entry of the
    [additional_params] mapping passed to [EnvParams]. *)
Theorem ring_length_range_in_env_params {W : Type} (lib : library W) K g w :
  completed (exec lib (configuration K) g w) ->
  let t := trace (exec lib (configuration K) g w) in
  calls_to "NetParams" t = [Apply "NetParams" [] [("additional_params", K)]]
  /\ exists c,
      calls_to "EnvParams" t = [c]
      /\ ring_length_of (assoc "additional_params" (kwargs_of c))
         = Some (VList [VInt 220; VInt 270]).
Proof.
  intros Hc t; subst t.
  destruct (configuration_completed lib K g w Hc)
    as (net & ic & tl & veh & a1 & a2 & sc & sumo & envp & names & printed
        & -> & _).
  split; [vm_compute; reflexivity|].
  eexists. split; vm_compute; reflexivity.
Qed.

Lemma ring_length_range_in_env_params_witness :
  completed quiet_configuration
  /\ calls_to "NetParams" (trace quiet_configuration)
     = [Apply "NetParams" [] [("additional_params", loop_net_params)]].
Proof.
  assert (Hc : completed quiet_configuration)
    by (exists VNone; vm_compute; reflexivity).
  split; [exact Hc|].
  unfold quiet_configuration in Hc.
  exact (proj1 (ring_length_range_in_env_params _ _ _ _ Hc)).
Defined.

(** C5 as stated fails: with network parameters of the shape the
    specification gives them, a ring length and a lane count, the only
    argument [NetParams] receives is a mapping without any ring-length
    range, while [EnvParams] receives the range. *)
Lemma net_params_without_ring_length_range :
  let t := trace quiet_configuration in
  exists c c',
    calls_to "NetParams" t = [c]
    /\ keys (kwargs_of c) = ["additional_params"]
    /\ ring_length_of (assoc "additional_params" (kwargs_of c)) = None
    /\ calls_to "EnvParams" t = [c']
    /\ ring_length_of (assoc "additional_params" (kwargs_of c'))
       = Some (VList [VInt 220; VInt 270]).
Proof.
  do 2 eexists. split; [vm_compute; reflexivity|].
  split; [reflexivity|]. split; [reflexivity|].
  split; vm_compute; reflexivity.
Qed.

(** ** The vehicle registry *)

(** C2: in a completed run of the configuration cells, against any
    library, the registry created by [VehicleParams()] receives exactly two
    [add] calls, and each binds exactly the parameters [veh_id],
    [acceleration_controller], [routing_controller] and [num_vehicles];
    against the flow classes the registry then holds exactly two entries, the
    human-driven one with [IDMController] and 21 vehicles and the RL-driven
    one with [RLController] and 1 vehicle. *)
Theorem vehicle_registry_entries (K : value) :
  (forall (W : Type) (lib : library W) g w,
      completed (exec lib (configuration K) g w) ->
      exists veh c1 c2,
        answers_of "VehicleParams" (trace (exec lib (configuration K) g w))
        = [veh]
        /\ method_calls (trace (exec lib (configuration K) g w)) = [c1; c2]
        /\ c1 = Method veh "add" [VStr "human"]
                  [("acceleration_controller",
                     VTuple [VName "IDMController"; VDict []]);
                   ("routing_controller",
                     VTuple [VName "ContinuousRouter"; VDict []]);
                   ("num_vehicles", VInt 21)]
        /\ c2 = Method veh "add" []
                  [("veh_id", VStr "rl");
                   ("acceleration_controller",
                     VTuple [VName "RLController"; VDict []]);
                   ("routing_controller",
                     VTuple [VName "ContinuousRouter"; VDict []]);
                   ("num_vehicles", VInt 1)]
        /\ Forall (fun c =>
             keys <$> FlowParams.bind_args FlowParams.add_parameters
                        (args_of c) (kwargs_of c)
             = Some ["veh_id"; "acceleration_controller";
                     "routing_controller"; "num_vehicles"]) [c1; c2])
  /\ (let r := exec FlowParams.flow (configuration K) ∅ [] in
      FlowParams.registry_at (world r) (globals r !! "vehicles") =
        Some [ {| FlowParams.veh_id := "human";
                  FlowParams.acceleration_controller :=
                    VTuple [VName "IDMController"; VDict []];
                  FlowParams.routing_controller :=
                    VTuple [VName "ContinuousRouter"; VDict []];
                  FlowParams.num_vehicles := 21 |};
               {| FlowParams.veh_id := "rl";
                  FlowParams.acceleration_controller :=
                    VTuple [VName "RLController"; VDict []];
                  FlowParams.routing_controller :=
                    VTuple [VName "ContinuousRouter"; VDict []];
                  FlowParams.num_vehicles := 1 |} ]).
Proof.
  split.
  - intros W lib g w Hc.
    destruct (configuration_completed lib K g w Hc)
      as (net & ic & tl & veh & a1 & a2 & sc & sumo & envp & names & printed
          & -> & _).
    exists veh. do 2 eexists.
    split; [vm_compute; reflexivity|].
    split; [vm_compute; reflexivity|].
    split; [reflexivity|]. split; [reflexivity|].
    repeat constructor.
  - vm_compute. reflexivity.
Qed.

Lemma vehicle_registry_entries_witness :
  completed quiet_configuration
  /\ exists veh, answers_of "VehicleParams" (trace quiet_configuration) = [veh].
Proof.
  assert (Hc : completed quiet_configuration)
    by (exists VNone; vm_compute; reflexivity).
  split; [exact Hc|].
  unfold quiet_configuration in Hc.
  destruct (proj1 (vehicle_registry_entries loop_net_params) _ _ _ _ Hc)
    as (veh & _ & _ & H & _).
  exists veh. exact H.
Defined.

(** C10: against the flow classes, the registry the configuration cells
    leave has two entries, whose identifiers ["human"] and ["rl"] are
    distinct, which both route with [ContinuousRouter], and whose vehicle
    counts sum to 22. *)
Theorem vehicle_registry_invariants (K : value) :
  let r := exec FlowParams.flow (configuration K) ∅ [] in
  exists entries,
    FlowParams.registry_at (world r) (globals r !! "vehicles") = Some entries
    /\ length entries = 2%nat
    /\ map FlowParams.veh_id entries = ["human"; "rl"]
    /\ NoDup (map FlowParams.veh_id entries)
    /\ Forall (fun e => FlowParams.routing_controller e
                        = VTuple [VName "ContinuousRouter"; VDict []]) entries
    /\ map FlowParams.num_vehicles entries = [21; 1]
    /\ FlowParams.total_vehicles entries = 22.
Proof.
  eexists. split; [vm_compute; reflexivity|].
  split; [reflexivity|]. split; [reflexivity|].
  split.
  - cbn. apply NoDup_cons. split; [|apply NoDup_singleton].
    rewrite list_elem_of_singleton. discriminate.
  - split; [repeat constructor|]. split; reflexivity.
Qed.


(** ** The launch loop *)

Lemma launch_run {W : Type} (lib : library W) g w fn s :
  g !! "run_task" = Some fn ->
  g !! "seed" = Some s ->
  exec lib launch g w =
    Run (fst (lib (launch_call fn s) w)) g (snd (lib (launch_call fn s) w))
        [(launch_call fn s, fst (lib (launch_call fn s) w))].
Proof.
  intros Hfn Hs. unfold launch, load, ext. cbn [bind exec].
  rewrite Hfn, Hs. by destruct (lib (launch_call fn s) w) as [[e|v] w'].
Qed.

(** By induction on the seed list: one launch per seed, in order, until a
    launch raises; only the loop variable is rebound. *)
Lemma launch_loop_run {W : Type} (lib : library W) fn sds g w :
  g !! "run_task" = Some fn ->
  (exists n, calls (trace (exec lib (launch_loop sds) g w))
             = map (launch_call fn) (take n sds))
  /\ (completed (exec lib (launch_loop sds) g w) ->
      calls (trace (exec lib (launch_loop sds) g w))
      = map (launch_call fn) sds)
  /\ (forall x, x <> "seed" ->
      globals (exec lib (launch_loop sds) g w) !! x = g !! x).
Proof.
  unfold launch_loop. revert g w.
  induction sds as [|s rest IH]; intros g w Hfn.
  - cbn. split; [by exists 0%nat|]. split; done.
  - cbn [for_each exec]. rewrite exec_bind.
    rewrite (launch_run lib _ w fn s)
      by (lookups; (done || by rewrite lookup_insert_ne)).
    destruct (lib (launch_call fn s) w) as [[e|v] w']; cbn [fst snd result].
    + split; [by exists 1%nat|]. split.
      * intros [v Hv]. discriminate Hv.
      * intros x Hx. cbn. by rewrite lookup_insert_ne.
    + cbn [globals world trace].
      destruct (IH (<["seed":=s]> g) w') as ((n & Hn) & Hall & Hframe).
      { by rewrite lookup_insert_ne. }
      rewrite trace_after, globals_after. unfold completed.
      rewrite result_after. unfold calls in *. cbn [map app fst].
      split; [|split].
      * exists (S n). cbn [take]. by rewrite Hn.
      * intros Hc. f_equal. by apply Hall.
      * intros x Hx. rewrite Hframe by done. by rewrite lookup_insert_ne.
Qed.

(** C6: started after [run_task] is defined, the loop over any seed list
    calls [run_experiment_lite] once per seed, in order, each time with the
    [run_task] function and exactly the keyword arguments [n_parallel = 1],
    [snapshot_mode = "all"], [seed], [mode = "local"] and
    [exp_prefix = "training_example"]; a launch that raises ends the loop.
    For the notebook's own list [[5]] that is exactly one call, with
    [seed = 5]. *)
Theorem launch_once_per_seed {W : Type} (lib : library W) g w :
  let launched := fun seed =>
    Apply "run_experiment_lite" [VFun "run_task"]
      [("n_parallel", VInt 1); ("snapshot_mode", VStr "all"); ("seed", seed);
       ("mode", VStr "local"); ("exp_prefix", VStr "training_example")] in
  (forall sds,
      completed (exec lib (cell_def_run_task ;; launch_loop sds) g w) ->
      calls (trace (exec lib (cell_def_run_task ;; launch_loop sds) g w))
      = map launched sds)
  /\ (forall sds, exists n,
      calls (trace (exec lib (cell_def_run_task ;; launch_loop sds) g w))
      = map launched (take n sds))
  /\ calls (trace (exec lib (cell_def_run_task ;; cell_launch) g w))
     = [launched (VInt 5)].
Proof.
  intros launched.
  assert (Hfn : <["run_task":=VFun "run_task"]> g !! "run_task"
                = Some (VFun "run_task")) by apply lookup_insert_eq.
  split; [|split].
  - intros sds Hc.
    apply (launch_loop_run lib (VFun "run_task") sds _ w Hfn). exact Hc.
  - intros sds.
    apply (launch_loop_run lib (VFun "run_task") sds _ w Hfn).
  - unfold cell_launch, seeds.
    destruct (launch_loop_run lib (VFun "run_task") [VInt 5] _ w Hfn)
      as ((n & Hn) & Hall & _).
    change (exec lib (cell_def_run_task;; launch_loop [VInt 5]) g w)
      with (exec lib (launch_loop [VInt 5])
              (<["run_task":=VFun "run_task"]> g) w).
    revert Hall. unfold launch_loop. cbn [for_each exec].
    rewrite exec_bind, (launch_run lib _ w (VFun "run_task") (VInt 5))
      by (lookups; (done || by rewrite lookup_insert_ne)).
    by destruct (lib _ w) as [[e|v] w'].
Qed.

Lemma launch_once_per_seed_witness :
  completed (exec (quiet_lib (VInt 100))
               (cell_def_run_task ;; launch_loop [VInt 5; VInt 20; VInt 68])
               ∅ 0%nat)
  /\ length (calls (trace (exec (quiet_lib (VInt 100))
               (cell_def_run_task ;; launch_loop [VInt 5; VInt 20; VInt 68])
               ∅ 0%nat))) = 3%nat.
Proof.
  assert (Hc : completed (exec (quiet_lib (VInt 100))
               (cell_def_run_task ;; launch_loop [VInt 5; VInt 20; VInt 68])
               ∅ 0%nat))
    by (exists VNone; vm_compute; reflexivity).
  split; [exact Hc|].
  rewrite (proj1 (launch_once_per_seed (quiet_lib (VInt 100)) ∅ 0%nat)
             [VInt 5; VInt 20; VInt 68] Hc).
  reflexivity.
Defined.

(** ** Errors *)

Lemma handler_free_run_task args : handler_free (run_task args).
Proof. unfold run_task, load, ext. cbn. done. Qed.

Lemma handler_free_launch_loop sds : handler_free (launch_loop sds).
Proof.
  apply handler_free_for_each. unfold launch, load, ext. cbn. done.
Qed.

Lemma handler_free_notebook K : handler_free (notebook K).
Proof.
  unfold notebook. apply handler_free_bind.
  - unfold configuration, cell_scenario_parameters, new_vehicles, add_human,
      add_rl, cell_scenario, cell_sumo_params, cell_env_params,
      cell_print_envs, cell_pass_params, assign, load, ext.
    cbn. done.
  - intros _. apply handler_free_bind; [by cbn|].
    intros _. apply handler_free_launch_loop.
Qed.

(** C7: [run_task], the launch loop and the notebook as a whole contain no
    [try]; so, against any library and from any state, an error raised by a
    library call is the result of the run, unchanged. *)
Theorem errors_propagate_unchanged :
  (forall args, handler_free (run_task args))
  /\ (forall sds, handler_free (launch_loop sds))
  /\ (forall K, handler_free (notebook K))
  /\ forall (W : Type) (lib : library W) g w e,
      (forall args,
          In e (raised (trace (exec lib (run_task args) g w))) ->
          result (exec lib (run_task args) g w) = inl e)
      /\ (forall sds,
          In e (raised (trace (exec lib (launch_loop sds) g w))) ->
          result (exec lib (launch_loop sds) g w) = inl e)
      /\ (forall K,
          In e (raised (trace (exec lib (notebook K) g w))) ->
          result (exec lib (notebook K) g w) = inl e).
Proof.
  split; [exact handler_free_run_task|].
  split; [exact handler_free_launch_loop|].
  split; [exact handler_free_notebook|].
  intros W lib g w e. split; [|split].
  - intros args. apply handler_free_propagates, handler_free_run_task.
  - intros sds. apply handler_free_propagates, handler_free_launch_loop.
  - intros K. apply handler_free_propagates, handler_free_notebook.
Qed.

Lemma errors_propagate_unchanged_witness :
  let e := Exn "ValueError" "simulator crash" in
  In e (raised (trace (exec (failing_lib "TRPO" e) (run_task [])
                         configured 0%nat)))
  /\ result (exec (failing_lib "TRPO" e) (run_task []) configured 0%nat)
     = inl e.
Proof.
  intros e.
  assert (H : In e (raised (trace (exec (failing_lib "TRPO" e) (run_task [])
                                     configured 0%nat))))
    by (vm_compute; left; reflexivity).
  split; [exact H|].
  destruct errors_propagate_unchanged as (_ & _ & _ & Hp).
  exact (proj1 (Hp _ (failing_lib "TRPO" e) configured 0%nat e) [] H).
Defined.

(** ** The optimizer call *)

(** [run_task] binds no module-level name. *)
Lemma run_task_frame {W : Type} (lib : library W) g w args :
  globals (exec lib (run_task args) g w) = g.
Proof.
  unfold run_task, load, ext. cbn [bind exec].
  destruct (g !! "env_name"); [|done].
  destruct (g !! "pass_params"); [|done].
  repeat (ask lib; [done|]). done.
Qed.

(** Any run of [run_task] that calls [TRPO], completed or not, made these
    seven calls before it. *)
Lemma run_task_reaches_TRPO {W : Type} (lib : library W) g w args c :
  In c (calls_to "TRPO" (trace (exec lib (run_task args) g w))) ->
  exists name pp env horizon nenv spec policy spec' baseline o rest,
    g !! "env_name" = Some name
    /\ g !! "pass_params" = Some pp
    /\ trace (exec lib (run_task args) g w) =
         (Apply "GymEnv" [name]
            [("record_video", VBool false); ("register_params", pp)],
          inr env)
         :: (Attr env "horizon", inr horizon)
         :: (Apply "normalize" [env] [], inr nenv)
         :: (Attr nenv "spec", inr spec)
         :: (Apply "GaussianMLPPolicy" []
               [("env_spec", spec);
                ("hidden_sizes", VTuple [VInt 32; VInt 32])], inr policy)
         :: (Attr nenv "spec", inr spec')
         :: (Apply "LinearFeatureBaseline" [] [("env_spec", spec')],
             inr baseline)
         :: (c, o) :: rest
    /\ c = Apply "TRPO" []
             [("env", nenv); ("policy", policy); ("baseline", baseline);
              ("batch_size", VInt 1000); ("max_path_length", horizon);
              ("discount", VFloat 0.999); ("n_itr", VInt 1)].
Proof.
  remember (exec lib (run_task args) g w) as R eqn:HR. revert HR.
  unfold run_task, load, ext. cbn [bind exec].
  destruct (g !! "env_name") as [name|]; [|by intros ->].
  destruct (g !! "pass_params") as [pp|]; [|by intros ->].
  do 7 (ask lib; [by intros ->; vm_compute|]).
  ask lib; [|ask lib]; intros ->; cbn [after trace app];
    vm_compute; (intros [<-|[]]); by repeat eexists.
Qed.

(** C1, as the code has it: whenever [run_task] calls [TRPO], against any
    library and from any state, the call has no positional argument and
    exactly seven keyword arguments; [batch_size = 1000], [discount = 0.999]
    and [n_itr = 1] are literals; [policy] is what [GaussianMLPPolicy]
    returned for the literal [hidden_sizes = (32, 32)]; and [env], [baseline]
    and [max_path_length] are what the library returned from [normalize],
    [LinearFeatureBaseline] and the attribute [horizon].  A completed run
    calls [TRPO] once and [train] once, on the object [TRPO] returned. *)
Theorem trpo_arguments {W : Type} (lib : library W) g w args :
  (forall c,
      In c (calls_to "TRPO" (trace (exec lib (run_task args) g w))) ->
      exists env horizon nenv spec policy spec' baseline,
        c = Apply "TRPO" []
              [("env", nenv); ("policy", policy); ("baseline", baseline);
               ("batch_size", VInt 1000); ("max_path_length", horizon);
               ("discount", VFloat 0.999); ("n_itr", VInt 1)]
        /\ In (Apply "GaussianMLPPolicy" []
                 [("env_spec", spec);
                  ("hidden_sizes", VTuple [VInt 32; VInt 32])], inr policy)
              (trace (exec lib (run_task args) g w))
        /\ In (Attr env "horizon", inr horizon)
              (trace (exec lib (run_task args) g w))
        /\ In (Apply "normalize" [env] [], inr nenv)
              (trace (exec lib (run_task args) g w))
        /\ In (Apply "LinearFeatureBaseline" [] [("env_spec", spec')],
               inr baseline)
              (trace (exec lib (run_task args) g w)))
  /\ (completed (exec lib (run_task args) g w) ->
      exists c algo,
        calls_to "TRPO" (trace (exec lib (run_task args) g w)) = [c]
        /\ In (c, inr algo) (trace (exec lib (run_task args) g w))
        /\ method_calls (trace (exec lib (run_task args) g w))
           = [Method algo "train" [] []]).
Proof.
  split.
  - intros c Hc.
    destruct (run_task_reaches_TRPO lib g w args c Hc)
      as (name & pp & env & horizon & nenv & spec & policy & spec' & baseline
          & o & rest & _ & _ & -> & ->).
    exists env, horizon, nenv, spec, policy, spec', baseline.
    split; [reflexivity|]. cbn [In]. tauto.
  - intros Hc.
    destruct (g !! "env_name") as [name|] eqn:Hn; cycle 1.
    { destruct Hc as [v Hv]. revert Hv.
      unfold run_task, load, ext. cbn [bind exec]. by rewrite Hn. }
    destruct (g !! "pass_params") as [pp|] eqn:Hp; cycle 1.
    { destruct Hc as [v Hv]. revert Hv.
      unfold run_task, load, ext. cbn [bind exec]. by rewrite Hn, Hp. }
    destruct (run_task_completed lib g w args name pp Hn Hp Hc)
      as (env & horizon & nenv & spec & policy & spec' & baseline & algo
          & trained & ->).
    do 2 eexists. split; [vm_compute; reflexivity|].
    split; [|vm_compute; reflexivity].
    cbn [In]. tauto.
Qed.

Lemma trpo_arguments_witness :
  exists c,
    In c (calls_to "TRPO" (trace (exec (quiet_lib (VInt 100)) (run_task [])
                                    configured 0%nat)))
    /\ assoc "batch_size" (kwargs_of c) = Some (VInt 1000).
Proof.
  eexists. split.
  - vm_compute. left. reflexivity.
  - destruct (proj1 (trpo_arguments (quiet_lib (VInt 100)) configured 0%nat [])
                _ (or_introl eq_refl
                   : In _ (calls_to "TRPO"
                       (trace (exec (quiet_lib (VInt 100)) (run_task [])
                                 configured 0%nat)))))
      as (env & horizon & nenv & spec & policy & spec' & baseline & Hc & _).
    reflexivity.
Defined.

(** C1 as stated fails: the keyword arguments [TRPO] receives are not fixed
    by the notebook.  [max_path_length] is whatever the library answers for
    the attribute [horizon]: two libraries that differ only in this answer
    make [run_task] pass different arguments. *)
Lemma trpo_arguments_not_all_literal :
  ~ exists kwargs : list (string * value),
      forall (horizon : value) (c : call),
        In c (calls_to "TRPO"
                (trace (exec (quiet_lib horizon) (run_task [])
                          configured 0%nat))) ->
        kwargs_of c = kwargs.
Proof.
  intros [kwargs H].
  pose proof (H (VInt 100) _ (or_introl eq_refl)) as H100.
  pose proof (H (VInt 7) _ (or_introl eq_refl)) as H7.
  vm_compute in H100, H7. rewrite <- H7 in H100. discriminate H100.
Qed.

(** C9: whenever [run_task] calls [TRPO], against any library and from any
    state, the run began with [GymEnv], then read the attribute [horizon] of
    the object [GymEnv] returned, and only then passed that object to
    [normalize]; the value read is the [max_path_length] argument of [TRPO],
    whose [env] argument is the normalized environment.  The value is the
    library's: for every value [h] there is a library under which [TRPO]
    receives [max_path_length = h]. *)
Theorem max_path_length_is_env_horizon :
  (forall (W : Type) (lib : library W) g w args c,
      In c (calls_to "TRPO" (trace (exec lib (run_task args) g w))) ->
      exists name pp env horizon nenv rest,
        trace (exec lib (run_task args) g w) =
          (Apply "GymEnv" [name]
             [("record_video", VBool false); ("register_params", pp)],
           inr env)
          :: (Attr env "horizon", inr horizon)
          :: (Apply "normalize" [env] [], inr nenv)
          :: rest
        /\ assoc "max_path_length" (kwargs_of c) = Some horizon
        /\ assoc "env" (kwargs_of c) = Some nenv)
  /\ (forall h : value,
      map (fun c => assoc "max_path_length" (kwargs_of c))
        (calls_to "TRPO"
           (trace (exec (quiet_lib h) (run_task []) configured 0%nat)))
      = [Some h]).
Proof.
  split.
  - intros W lib g w args c Hc.
    destruct (run_task_reaches_TRPO lib g w args c Hc)
      as (name & pp & env & horizon & nenv & spec & policy & spec' & baseline
          & o & rest & _ & _ & -> & ->).
    exists name, pp, env, horizon, nenv. eexists.
    split; [reflexivity|]. split; reflexivity.
  - intros h. vm_compute. reflexivity.
Qed.

Lemma max_path_length_is_env_horizon_witness :
  exists c,
    In c (calls_to "TRPO" (trace (exec (quiet_lib (VInt 100)) (run_task [])
                                    configured 0%nat)))
    /\ assoc "max_path_length" (kwargs_of c) = Some (VInt 100).
Proof.
  eexists. split.
  - vm_compute. left. reflexivity.
  - destruct (proj1 max_path_length_is_env_horizon
                _ (quiet_lib (VInt 100)) configured 0%nat [] _
                (or_introl eq_refl
                   : In _ (calls_to "TRPO"
                       (trace (exec (quiet_lib (VInt 100)) (run_task [])
                                 configured 0%nat)))))
      as (name & pp & env & horizon & nenv & rest & _ & _ & _).
    reflexivity.
Defined.

(** ** The order of the steps of [run_task] *)

(** C3: after a completed run of the configuration cells, every completed
    run of [run_task], against any library, makes these calls in this order:
    [GymEnv] with the name ["WaveAttenuationPOEnv"] and the tuple
    [pass_params] of the name and the six configuration objects; the read of
    [horizon]; [normalize] on the environment; [GaussianMLPPolicy] and
    [LinearFeatureBaseline] on the specification of the normalized
    environment; [TRPO] on the normalized environment, the policy and the
    baseline, with [n_itr = 1]; and [train] on the object [TRPO] returned. *)
Theorem run_task_steps_in_order
    {W W' : Type} (lib : library W) (lib' : library W') K g w w' args :
  completed (exec lib (configuration K) g w) ->
  completed
    (exec lib' (run_task args) (globals (exec lib (configuration K) g w)) w') ->
  exists sumo veh envp net ic sc
         env horizon nenv spec policy spec' baseline algo trained,
    globals (exec lib (configuration K) g w) !! "pass_params"
      = Some (VTuple [VStr "WaveAttenuationPOEnv"; sumo; veh; envp; net; ic;
                      sc])
    /\ answers_of "SumoParams" (trace (exec lib (configuration K) g w))
       = [sumo]
    /\ answers_of "VehicleParams" (trace (exec lib (configuration K) g w))
       = [veh]
    /\ answers_of "EnvParams" (trace (exec lib (configuration K) g w))
       = [envp]
    /\ answers_of "NetParams" (trace (exec lib (configuration K) g w))
       = [net]
    /\ answers_of "InitialConfig" (trace (exec lib (configuration K) g w))
       = [ic]
    /\ answers_of "LoopScenario" (trace (exec lib (configuration K) g w))
       = [sc]
    /\ trace (exec lib' (run_task args)
                (globals (exec lib (configuration K) g w)) w') =
         [(Apply "GymEnv" [VStr "WaveAttenuationPOEnv"]
             [("record_video", VBool false);
              ("register_params",
                VTuple [VStr "WaveAttenuationPOEnv"; sumo; veh; envp; net;
                        ic; sc])], inr env);
          (Attr env "horizon", inr horizon);
          (Apply "normalize" [env] [], inr nenv);
          (Attr nenv "spec", inr spec);
          (Apply "GaussianMLPPolicy" []
             [("env_spec", spec);
              ("hidden_sizes", VTuple [VInt 32; VInt 32])], inr policy);
          (Attr nenv "spec", inr spec');
          (Apply "LinearFeatureBaseline" [] [("env_spec", spec')],
           inr baseline);
          (Apply "TRPO" []
             [("env", nenv); ("policy", policy); ("baseline", baseline);
              ("batch_size", VInt 1000); ("max_path_length", horizon);
              ("discount", VFloat 0.999); ("n_itr", VInt 1)], inr algo);
          (Method algo "train" [] [], inr trained)].
Proof.
  intros Hc Hr.
  destruct (configuration_completed lib K g w Hc)
    as (net & ic & tl & veh & a1 & a2 & sc & sumo & envp & names & printed
        & Ht & Hname & Hpp & _).
  destruct (run_task_completed lib' _ w' args _ _ Hname Hpp Hr)
    as (env & horizon & nenv & spec & policy & spec' & baseline & algo
        & trained & Hrun).
  exists sumo, veh, envp, net, ic, sc,
    env, horizon, nenv, spec, policy, spec', baseline, algo, trained.
  split; [exact Hpp|]. rewrite Ht.
  do 6 (split; [vm_compute; reflexivity|]). exact Hrun.
Qed.

Lemma run_task_steps_in_order_witness :
  completed quiet_configuration
  /\ completed (exec (quiet_lib (VInt 100)) (run_task []) configured 0%nat)
  /\ length (trace (exec (quiet_lib (VInt 100)) (run_task [])
                      configured 0%nat)) = 9%nat.
Proof.
  assert (Hc : completed quiet_configuration)
    by (exists VNone; vm_compute; reflexivity).
  assert (Hr : completed
                 (exec (quiet_lib (VInt 100)) (run_task []) configured 0%nat))
    by (exists VNone; vm_compute; reflexivity).
  split; [exact Hc|]. split; [exact Hr|].
  unfold configured, quiet_configuration in Hc, Hr.
  destruct (run_task_steps_in_order _ _ _ _ _ _ _ Hc Hr)
    as (sumo & veh & envp & net & ic & sc & env & horizon & nenv & spec
        & policy & spec' & baseline & algo & trained & _ & _ & _ & _ & _ & _
        & _ & Ht).
  unfold configured, quiet_configuration. rewrite Ht. reflexivity.
Defined.

(** ** The life of the configuration objects *)

(** The calls [run_task] makes to [GymEnv], whatever the library answers. *)
Lemma run_task_gymenv_calls {W : Type} (lib : library W) g w args name pp :
  g !! "env_name" = Some name ->
  g !! "pass_params" = Some pp ->
  calls_to "GymEnv" (trace (exec lib (run_task args) g w))
  = [Apply "GymEnv" [name]
       [("record_video", VBool false); ("register_params", pp)]].
Proof.
  intros Hn Hp.
  remember (exec lib (run_task args) g w) as R eqn:HR. revert HR.
  unfold run_task, load, ext. cbn [bind exec]. rewrite Hn, Hp.
  repeat (ask lib; [by intros ->; vm_compute|]).
  intros ->. by vm_compute.
Qed.

(** C8, as the code has it.  In a completed run of the configuration cells,
    against any library: each of the network parameters, the initial
    placement config, the vehicle registry, the simulation parameters and the
    environment parameters is returned by exactly one constructor call; the
    registry is constructed without arguments, and the only method calls of
    the notebook are two [add] calls, both on the registry and both after its
    construction; every one of these objects is still bound to its
    module-level name afterwards and is referenced from the tuple
    [pass_params]; every call to [GymEnv] that a later run of [run_task]
    makes hands it that tuple, a completed run makes exactly one, and
    [run_task] rebinds no name.  The launch parameters are written anew for
    every launch: each call of the loop carries the literals
    [n_parallel = 1], [snapshot_mode = "all"], [mode = "local"] and
    [exp_prefix = "training_example"] and the seed of its turn, and the loop
    binds no name but [seed].  Against the flow classes the registry is
    empty when its constructor returns and holds two entries when the cells
    are done. *)
Theorem configuration_objects_lifecycle (K : value) :
  (forall (W W' : Type) (lib : library W) (lib' : library W') g w,
      completed (exec lib (configuration K) g w) ->
      let r := exec lib (configuration K) g w in
      exists net ic veh sumo envp sc,
        (answers_of "NetParams" (trace r) = [net]
         /\ answers_of "InitialConfig" (trace r) = [ic]
         /\ answers_of "VehicleParams" (trace r) = [veh]
         /\ answers_of "SumoParams" (trace r) = [sumo]
         /\ answers_of "EnvParams" (trace r) = [envp])
        /\ (exists before later args1 kwargs1 args2 kwargs2,
             trace r
             = (before ++ (Apply "VehicleParams" [] [], inr veh) :: later)%list
             /\ method_calls before = []
             /\ method_calls later
                = [Method veh "add" args1 kwargs1;
                   Method veh "add" args2 kwargs2])
        /\ (globals r !! "net_params" = Some net
            /\ globals r !! "initial_config" = Some ic
            /\ globals r !! "vehicles" = Some veh
            /\ globals r !! "sumo_params" = Some sumo
            /\ globals r !! "env_params" = Some envp)
        /\ globals r !! "pass_params"
           = Some (VTuple [VStr "WaveAttenuationPOEnv"; sumo; veh; envp; net;
                           ic; sc])
        /\ (forall w' args,
             let later_run := exec lib' (run_task args) (globals r) w' in
             let handed :=
               Apply "GymEnv" [VStr "WaveAttenuationPOEnv"]
                 [("record_video", VBool false);
                  ("register_params",
                    VTuple [VStr "WaveAttenuationPOEnv"; sumo; veh; envp;
                            net; ic; sc])] in
             (forall c,
                 In c (calls_to "GymEnv" (trace later_run)) -> c = handed)
             /\ (completed later_run ->
                 calls_to "GymEnv" (trace later_run) = [handed])
             /\ globals later_run = globals r)
        /\ (forall w' sds,
             let defined := <["run_task":=VFun "run_task"]> (globals r) in
             let launches := exec lib' (launch_loop sds) defined w' in
             (exists n,
                 calls (trace launches)
                 = map (fun seed =>
                          Apply "run_experiment_lite" [VFun "run_task"]
                            [("n_parallel", VInt 1);
                             ("snapshot_mode", VStr "all"); ("seed", seed);
                             ("mode", VStr "local");
                             ("exp_prefix", VStr "training_example")])
                     (take n sds))
             /\ (forall x,
                   x <> "seed" -> globals launches !! x = defined !! x)))
  /\ (let constructed :=
        exec FlowParams.flow (cell_scenario_parameters K ;; new_vehicles)
          ∅ [] in
      let finished := exec FlowParams.flow (configuration K) ∅ [] in
      globals constructed !! "vehicles" = globals finished !! "vehicles"
      /\ FlowParams.registry_at (world constructed)
           (globals constructed !! "vehicles") = Some []
      /\ length <$> FlowParams.registry_at (world finished)
                      (globals finished !! "vehicles") = Some 2%nat).
Proof.
  split; [|repeat split; vm_compute; reflexivity].
  intros W W' lib lib' g w Hc r; subst r.
  destruct (configuration_completed lib K g w Hc)
    as (net & ic & tl & veh & a1 & a2 & sc & sumo & envp & names & printed
        & Ht & Hname & Hpp & Hnet & Hic & Hveh & Hsc & Hsumo & Henvp).
  exists net, ic, veh, sumo, envp, sc.
  split; [rewrite Ht; repeat split; vm_compute; reflexivity|].
  split.
  { rewrite Ht. eexists [_; _; _], _. do 4 eexists.
    split; [reflexivity|]. split; vm_compute; reflexivity. }
  split; [done|]. split; [exact Hpp|]. split.
  - intros w' args later_run handed. subst later_run handed.
    rewrite (run_task_gymenv_calls lib' _ w' args _ _ Hname Hpp).
    split; [|split].
    + by intros c [<-|[]].
    + done.
    + apply run_task_frame.
  - intros w' sds defined launches. subst defined launches.
    destruct (launch_loop_run lib' (VFun "run_task") sds
                (<["run_task":=VFun "run_task"]>
                   (globals (exec lib (configuration K) g w))) w'
                (lookup_insert_eq _ _ _)) as (Hn & _ & Hframe).
    split; [exact Hn | exact Hframe].
Qed.

Lemma configuration_objects_lifecycle_witness :
  completed quiet_configuration
  /\ exists tuple, configured !! "pass_params" = Some (VTuple tuple).
Proof.
  assert (Hc : completed quiet_configuration)
    by (exists VNone; vm_compute; reflexivity).
  split; [exact Hc|].
  unfold quiet_configuration in Hc.
  destruct (proj1 (configuration_objects_lifecycle loop_net_params)
              _ nat _ (quiet_lib (VInt 100)) _ _ Hc)
    as (net & ic & veh & sumo & envp & sc & _ & _ & _ & Hpp & _).
  eexists. exact Hpp.
Defined.

(** C8 as stated fails.  The object [VehicleParams()] returns is not left
    as constructed: the notebook calls [add] on it twice afterwards.  And the
    objects are not discarded: when the configuration cells are done the
    registry and the other records are referenced from [pass_params], and
    [run_task], running later, reads the tuple and passes it on. *)
Lemma vehicle_registry_changed_and_records_retained :
  let constructed :=
    exec (quiet_lib (VInt 100))
      (cell_scenario_parameters loop_net_params ;; new_vehicles) ∅ 0%nat in
  let finished := quiet_configuration in
  globals constructed !! "vehicles" = Some (VRef 3%nat)
  /\ method_calls (trace constructed) = []
  /\ globals finished !! "vehicles" = Some (VRef 3%nat)
  /\ map (fun c => match c with
                   | Method o m _ _ => Some (o, m)
                   | _ => None
                   end) (method_calls (trace finished))
     = [Some (VRef 3%nat, "add"); Some (VRef 3%nat, "add")]
  /\ globals finished !! "pass_params"
     = Some (VTuple [VStr "WaveAttenuationPOEnv"; VRef 7%nat; VRef 3%nat;
                     VRef 8%nat; VRef 0%nat; VRef 1%nat; VRef 6%nat])
  /\ head (calls (trace (exec (quiet_lib (VInt 100)) (run_task [])
                           (globals finished) 0%nat)))
     = Some (Apply "GymEnv" [VStr "WaveAttenuationPOEnv"]
               [("record_video", VBool false);
                ("register_params",
                  VTuple [VStr "WaveAttenuationPOEnv"; VRef 7%nat;
                          VRef 3%nat; VRef 8%nat; VRef 0%nat; VRef 1%nat;
                          VRef 6%nat])]).
Proof.
  intros constructed finished.
  repeat split; vm_compute; reflexivity.
Qed.

(** Against the flow classes the two [add] calls change the registry: it is
    empty when its constructor returns and holds two entries when the
    configuration cells are done. *)
Lemma vehicle_registry_grows (K : value) :
  let constructed :=
    exec FlowParams.flow (cell_scenario_parameters K ;; new_vehicles) ∅ [] in
  let finished := exec FlowParams.flow (configuration K) ∅ [] in
  globals constructed !! "vehicles" = globals finished !! "vehicles"
  /\ FlowParams.registry_at (world constructed)
       (globals constructed !! "vehicles") = Some []
  /\ length <$> FlowParams.registry_at (world finished)
                  (globals finished !! "vehicles") = Some 2%nat.
Proof. repeat split; vm_compute; reflexivity. Qed.


(** * Further properties of the notebook *)

(** ** What a program reads and binds: general facts *)




Section Names.
Context {W : Type} (lib : library W).



(** Without a [try], no library call follows one that raised: every event
    before the last one returned. *)
Lemma handler_free_raise_last (p : prog) g w :
  handler_free p ->
  raised (before_last (trace (exec lib p g w))) = [].
Proof.
  revert g w. induction p as [v|x k IH|x v k IH|c k IH|b IHb h IHh k IH];
    intros g w Hfree; cbn [exec handler_free] in *.
  - done.
  - destruct (g !! x); [by apply IH | done].
  - by apply IH.
  - destruct (lib c w) as [[e|v] w']; [done|].
    rewrite trace_after. specialize (IH v g w' (Hfree v)).
    unfold before_last in *. cbn [app].
    destruct (trace (exec lib (k v) g w')) as [|ev t]; [done|].
    change (removelast ((c, inr v) :: ev :: t))
      with ((c, inr v) :: removelast (ev :: t)).
    exact IH.
  - destruct Hfree.
Qed.
End Names.


(** X1: against any library and from any state, [run_task], the launch loop
    and the notebook make no library call after one that raised: in every
    trace, each event before the last one is a call that returned. *)
Theorem no_call_after_a_raise {W : Type} (lib : library W) g w :
  (forall args,
      raised (before_last (trace (exec lib (run_task args) g w))) = [])
  /\ (forall sds,
      raised (before_last (trace (exec lib (launch_loop sds) g w))) = [])
  /\ (forall K,
      raised (before_last (trace (exec lib (notebook K) g w))) = []).
Proof.
  split; [|split].
  - intros args. apply handler_free_raise_last, handler_free_run_task.
  - intros sds. apply handler_free_raise_last, handler_free_launch_loop.
  - intros K. apply handler_free_raise_last, handler_free_notebook.
Qed.

(** ** The cell that builds [pass_params] *)

(** The branch of the cell where the name [y] is missing. *)
Ltac missing y E :=
  cbn [exec result trace world globals];
  split; [reflexivity|]; split; [reflexivity|];
  split; [by lookups|];
  split; [intros; congruence|];
  intros; exists y; split; [exact E|]; split; [reflexivity|]; by lookups.

(** X6: the cell that binds [env_name] and [pass_params] makes no library
    call, against any library.  It always binds [env_name].  When the six
    configuration names are bound it binds [pass_params] to the tuple of the
    name and their current values; when one of them is not, it raises the
    [NameError] of a missing one and leaves [pass_params] as it was. *)
Theorem pass_params_cell {W : Type} (lib : library W) g w :
  let r := exec lib cell_pass_params g w in
  trace r = [] /\ world r = w
  /\ globals r !! "env_name" = Some (VStr "WaveAttenuationPOEnv")
  /\ (forall sumo veh envp net ic sc,
        g !! "sumo_params" = Some sumo -> g !! "vehicles" = Some veh ->
        g !! "env_params" = Some envp -> g !! "net_params" = Some net ->
        g !! "initial_config" = Some ic -> g !! "scenario" = Some sc ->
        result r = inr VNone
        /\ globals r !! "pass_params"
           = Some (VTuple [VStr "WaveAttenuationPOEnv"; sumo; veh; envp;
                           net; ic; sc]))
  /\ (forall x,
        In x ["sumo_params"; "vehicles"; "env_params"; "net_params";
              "initial_config"; "scenario"] ->
        g !! x = None ->
        exists y,
          g !! y = None
          /\ result r = inl (NameError y)
          /\ globals r !! "pass_params" = g !! "pass_params").
Proof.
  intros r; subst r.
  unfold cell_pass_params, assign, load. cbn [bind exec].
  lookups.
  destruct (g !! "sumo_params") as [sumo|] eqn:E1;
    [|missing "sumo_params" E1].
  lookups.
  destruct (g !! "vehicles") as [veh|] eqn:E2; [|missing "vehicles" E2].
  lookups.
  destruct (g !! "env_params") as [envp|] eqn:E3;
    [|missing "env_params" E3].
  lookups.
  destruct (g !! "net_params") as [net|] eqn:E4;
    [|missing "net_params" E4].
  lookups.
  destruct (g !! "initial_config") as [ic|] eqn:E5;
    [|missing "initial_config" E5].
  lookups.
  destruct (g !! "scenario") as [sc|] eqn:E6; [|missing "scenario" E6].
  cbn [exec result trace world globals].
  split; [reflexivity|]. split; [reflexivity|]. split; [by lookups|].
  split.
  - intros sumo' veh' envp' net' ic' sc' H1 H2 H3 H4 H5 H6.
    split; [reflexivity|]. lookups. congruence.
  - intros x Hx Hnone. exfalso. cbn in Hx.
    repeat destruct Hx as [<-|Hx]; congruence || done.
Qed.

Lemma pass_params_cell_witness :
  result (exec (quiet_lib (VInt 100)) cell_pass_params configured 0%nat)
  = inr VNone
  /\ exists y,
      result (exec (quiet_lib (VInt 100)) cell_pass_params
                {["sumo_params" := VNone]} 0%nat) = inl (NameError y).
Proof.
  split.
  - eapply (pass_params_cell (quiet_lib (VInt 100)) configured 0%nat);
      vm_compute; reflexivity.
  - destruct (pass_params_cell (quiet_lib (VInt 100))
                {["sumo_params" := VNone]} 0%nat)
      as (_ & _ & _ & _ & Hmiss).
    destruct (Hmiss "scenario") as (y & _ & Hy & _).
    + cbn. tauto.
    + vm_compute. reflexivity.
    + exists y. exact Hy.
Defined.

(** ** [run_task] and the names it needs *)






(** X13: in a namespace where the five imported names are still bound to
    the callables they were imported as, running [run_task] with its name
    lookups is running it with the callees fixed: against any library, the
    same result, the same calls, the same state. *)
Theorem run_task_imports_intact {W : Type} (lib : library W) g w args :
  (forall n,
      In n ["TRPO"; "LinearFeatureBaseline"; "GaussianMLPPolicy";
            "normalize"; "GymEnv"] ->
      g !! n = Some (VName n)) ->
  exec lib (Resolved.run_task args) g w = exec lib (run_task args) g w.
Proof.
  intros Hi.
  assert (H1 : g !! "TRPO" = Some (VName "TRPO")) by (apply Hi; cbn; tauto).
  assert (H2 : g !! "LinearFeatureBaseline"
               = Some (VName "LinearFeatureBaseline"))
    by (apply Hi; cbn; tauto).
  assert (H3 : g !! "GaussianMLPPolicy" = Some (VName "GaussianMLPPolicy"))
    by (apply Hi; cbn; tauto).
  assert (H4 : g !! "normalize" = Some (VName "normalize"))
    by (apply Hi; cbn; tauto).
  assert (H5 : g !! "GymEnv" = Some (VName "GymEnv"))
    by (apply Hi; cbn; tauto).
  unfold Resolved.run_task, run_task, Resolved.apply_value, load, ext.
  cbn [bind exec]. rewrite H5.
  destruct (g !! "env_name"); [|done].
  destruct (g !! "pass_params"); [|done].
  do 2 (ask lib; [done|]). rewrite H4.
  ask lib; [done|]. rewrite H3.
  do 2 (ask lib; [done|]). rewrite H2.
  do 2 (ask lib; [done|]). rewrite H1.
  do 2 (ask lib; [done|]). done.
Qed.

Lemma run_task_imports_intact_witness :
  trace (exec (quiet_lib (VInt 100)) (Resolved.run_task [])
           (Resolved.with_imports configured) 0%nat)
  = trace (exec (quiet_lib (VInt 100)) (run_task [])
             (Resolved.with_imports configured) 0%nat).
Proof.
  rewrite (run_task_imports_intact (quiet_lib (VInt 100))
             (Resolved.with_imports configured) 0%nat []).
  - reflexivity.
  - intros n Hn. cbn in Hn.
    repeat destruct Hn as [<-|Hn]; [vm_compute; reflexivity..|destruct Hn].
Defined.

(** X8: [run_task] can be run again: it leaves the namespace as it found
    it, so a second run, whatever the library did in between, hands the same
    [env_name] and the same [pass_params] tuple to a new [GymEnv] call.  In
    a completed pair of runs there are two [GymEnv] calls with identical
    arguments and two [TRPO] calls. *)
Theorem run_task_twice {W : Type} (lib : library W) g w args args' name pp :
  g !! "env_name" = Some name ->
  g !! "pass_params" = Some pp ->
  completed (exec lib (run_task args ;; run_task args') g w) ->
  let r := exec lib (run_task args ;; run_task args') g w in
  calls_to "GymEnv" (trace r)
  = [Apply "GymEnv" [name]
       [("record_video", VBool false); ("register_params", pp)];
     Apply "GymEnv" [name]
       [("record_video", VBool false); ("register_params", pp)]]
  /\ length (calls_to "TRPO" (trace r)) = 2%nat
  /\ length (trace r) = 18%nat
  /\ globals r = g.
Proof.
  intros Hn Hp Hc r; subst r. revert Hc. rewrite exec_bind. cbn zeta.
  destruct (result (exec lib (run_task args) g w)) as [e|v] eqn:Hv.
  { intros [v' Hv']. congruence. }
  assert (H1 : completed (exec lib (run_task args) g w)) by by exists v.
  destruct (run_task_completed lib g w args name pp Hn Hp H1)
    as (env & horizon & nenv & spec & policy & spec' & baseline & algo
        & trained & Ht1).
  rewrite (run_task_frame lib g w args).
  unfold completed. rewrite result_after. intros H2.
  destruct (run_task_completed lib g _ args' name pp Hn Hp H2)
    as (env2 & horizon2 & nenv2 & spec2 & policy2 & spec2' & baseline2
        & algo2 & trained2 & Ht2).
  rewrite trace_after, globals_after, run_task_frame, Ht1, Ht2.
  repeat split; vm_compute; reflexivity.
Qed.

Lemma run_task_twice_witness :
  completed (exec (quiet_lib (VInt 100)) (run_task [] ;; run_task [])
               configured 0%nat)
  /\ length (trace (exec (quiet_lib (VInt 100)) (run_task [] ;; run_task [])
                      configured 0%nat)) = 18%nat.
Proof.
  assert (Hc : completed (exec (quiet_lib (VInt 100))
                            (run_task [] ;; run_task []) configured 0%nat))
    by (exists VNone; vm_compute; reflexivity).
  split; [exact Hc|].
  eapply (run_task_twice (quiet_lib (VInt 100)) configured 0%nat [] []);
    [vm_compute; reflexivity | vm_compute; reflexivity | exact Hc].
Defined.


(** ** The launch loop at its edges *)

(** X9: over an empty seed list the loop launches nothing and completes,
    also when [run_task] was never defined; over a non-empty list with
    [run_task] unbound it binds [seed] to the first seed and raises
    [NameError] for [run_task] before any launch. *)
Theorem launch_loop_edges {W : Type} (lib : library W) g w :
  exec lib (launch_loop []) g w = Run (inr VNone) g w []
  /\ (forall s rest,
        g !! "run_task" = None ->
        result (exec lib (launch_loop (s :: rest)) g w)
        = inl (NameError "run_task")
        /\ trace (exec lib (launch_loop (s :: rest)) g w) = []
        /\ globals (exec lib (launch_loop (s :: rest)) g w) !! "seed"
           = Some s).
Proof.
  split; [reflexivity|].
  intros s rest Hfn. unfold launch_loop, launch, load.
  cbn [for_each bind exec]. rewrite lookup_insert_ne by discriminate.
  rewrite Hfn. cbn. by rewrite lookup_insert_eq.
Qed.

Lemma launch_loop_edges_witness :
  result (exec (quiet_lib (VInt 100)) (launch_loop [VInt 5]) ∅ 0%nat)
  = inl (NameError "run_task").
Proof.
  apply (proj2 (launch_loop_edges (quiet_lib (VInt 100)) ∅ 0%nat)
           (VInt 5) []).
  vm_compute. reflexivity.
Defined.

(** X10: the loop variable outlives the loop.  After a completed loop over
    a non-empty seed list, against any library, [seed] is bound to the last
    seed of the list; over an empty list [seed] is left as it was. *)
Theorem seed_after_the_loop {W : Type} (lib : library W) fn sds g w :
  g !! "run_task" = Some fn ->
  completed (exec lib (launch_loop sds) g w) ->
  globals (exec lib (launch_loop sds) g w) !! "seed"
  = match last sds with
    | Some s => Some s
    | None => g !! "seed"
    end.
Proof.
  unfold launch_loop. revert g w.
  induction sds as [|s rest IH]; intros g w Hfn.
  - done.
  - cbn [for_each exec]. rewrite exec_bind.
    rewrite (launch_run lib _ w fn s)
      by (lookups; (done || by rewrite lookup_insert_ne)).
    destruct (lib (launch_call fn s) w) as [[e|v] w']; cbn [fst snd result].
    + intros [v Hv]. discriminate Hv.
    + cbn [globals world trace]. unfold completed.
      rewrite result_after, globals_after. intros Hc.
      rewrite IH; [|by rewrite lookup_insert_ne|exact Hc].
      rewrite last_cons. destruct (last rest); [done|].
      apply lookup_insert_eq.
Qed.

Lemma seed_after_the_loop_witness :
  globals (exec (quiet_lib (VInt 100))
             (launch_loop [VInt 5; VInt 20; VInt 68])
             {["run_task" := VFun "run_task"]} 0%nat) !! "seed"
  = Some (VInt 68).
Proof.
  apply (seed_after_the_loop (quiet_lib (VInt 100)) (VFun "run_task")
           [VInt 5; VInt 20; VInt 68] {["run_task" := VFun "run_task"]}
           0%nat).
  - vm_compute. reflexivity.
  - exists VNone. vm_compute. reflexivity.
Defined.

(** ** How the scenario is wired *)

(** X11: in a completed run of the configuration cells, against any
    library, [InitialConfig] is called once with [spacing = "uniform"] and
    [perturbation = 1] and [TrafficLightParams] once without arguments;
    [LoopScenario] is called once, named ["ring_example"], on the very
    objects those calls, [NetParams] and [VehicleParams] returned; both
    [add] calls on the registry come before it; and the registry, the
    network parameters, the initial config and the scenario inside the
    seven-element tuple [pass_params] are these same objects. *)
Theorem scenario_wiring {W : Type} (lib : library W) K g w :
  completed (exec lib (configuration K) g w) ->
  let r := exec lib (configuration K) g w in
  exists net ic tl veh sc tuple,
    answers_of "NetParams" (trace r) = [net]
    /\ answers_of "InitialConfig" (trace r) = [ic]
    /\ answers_of "TrafficLightParams" (trace r) = [tl]
    /\ answers_of "VehicleParams" (trace r) = [veh]
    /\ answers_of "LoopScenario" (trace r) = [sc]
    /\ calls_to "InitialConfig" (trace r)
       = [Apply "InitialConfig" []
            [("spacing", VStr "uniform"); ("perturbation", VInt 1)]]
    /\ calls_to "TrafficLightParams" (trace r)
       = [Apply "TrafficLightParams" [] []]
    /\ calls_to "LoopScenario" (trace r)
       = [Apply "LoopScenario" []
            [("name", VStr "ring_example"); ("vehicles", veh);
             ("net_params", net); ("initial_config", ic);
             ("traffic_lights", tl)]]
    /\ (exists before later,
          trace r = (before ++ later)%list
          /\ length (method_calls before) = 2%nat
          /\ calls_to "LoopScenario" before = []
          /\ method_calls later = []
          /\ length (calls_to "LoopScenario" later) = 1%nat)
    /\ globals r !! "pass_params" = Some (VTuple tuple)
    /\ length tuple = 7%nat
    /\ tuple !! 2%nat = Some veh
    /\ tuple !! 4%nat = Some net
    /\ tuple !! 5%nat = Some ic
    /\ tuple !! 6%nat = Some sc
    /\ globals r !! "scenario" = Some sc.
Proof.
  intros Hc r; subst r.
  destruct (configuration_completed lib K g w Hc)
    as (net & ic & tl & veh & a1 & a2 & sc & sumo & envp & names & printed
        & Ht & Hname & Hpp & Hnet & Hic & Hveh & Hsc & Hsumo & Henvp).
  exists net, ic, tl, veh, sc. eexists. rewrite Ht.
  do 8 (split; [vm_compute; reflexivity|]).
  split.
  - eexists (take 6 _), (drop 6 _). split; [symmetry; apply take_drop|].
    repeat split; vm_compute; reflexivity.
  - split; [exact Hpp|]. by repeat split.
Qed.

Lemma scenario_wiring_witness :
  completed quiet_configuration
  /\ answers_of "LoopScenario" (trace quiet_configuration) = [VRef 6%nat].
Proof.
  assert (Hc : completed quiet_configuration)
    by (exists VNone; vm_compute; reflexivity).
  split; [exact Hc|].
  unfold quiet_configuration in Hc.
  destruct (scenario_wiring _ _ _ _ Hc)
    as (net & ic & tl & veh & sc & tuple & _ & _ & _ & _ & Hsc & _).
  vm_compute. reflexivity.
Defined.

(** ** When [pass_params] exists *)

(** X12: started in a namespace where [pass_params] is unbound, the
    configuration cells bind it exactly when every library call before it
    returned: against any library, [pass_params] is bound afterwards if and
    only if the run completed.  A constructor that raises leaves nothing
    for [run_task] to pass on. *)
Theorem pass_params_bound_iff_completed
    {W : Type} (lib : library W) K g w :
  g !! "pass_params" = None ->
  is_Some (globals (exec lib (configuration K) g w) !! "pass_params")
  <-> completed (exec lib (configuration K) g w).
Proof.
  intros Hg. split.
  - remember (exec lib (configuration K) g w) as R eqn:HR. revert HR.
    unfold configuration, cell_scenario_parameters, new_vehicles, add_human,
      add_rl, cell_scenario, cell_sumo_params, cell_env_params,
      cell_print_envs, cell_pass_params, assign, load, ext.
    cbn [bind exec].
    repeat (ask lib;
            [intros -> H; cbn [after globals] in H;
             rewrite ?lookup_insert_ne in H by discriminate;
             rewrite Hg in H; by destruct H|]).
    lookups. cbn [exec]. intros -> _. by exists VNone.
  - intros Hc.
    destruct (configuration_completed lib K g w Hc)
      as (net & ic & tl & veh & a1 & a2 & sc & sumo & envp & names & printed
          & _ & _ & -> & _).
    by eexists.
Qed.

Lemma pass_params_bound_iff_completed_witness :
  is_Some (globals quiet_configuration !! "pass_params")
  /\ ~ is_Some (globals (exec (failing_lib "EnvParams" (Exn "KeyError" "x"))
                           (configuration loop_net_params) ∅ 0%nat)
                !! "pass_params").
Proof.
  split.
  - apply (pass_params_bound_iff_completed (quiet_lib (VInt 100))
             loop_net_params ∅ 0%nat); [reflexivity|].
    exists VNone. vm_compute. reflexivity.
  - intros H.
    apply (pass_params_bound_iff_completed
             (failing_lib "EnvParams" (Exn "KeyError" "x"))
             loop_net_params ∅ 0%nat) in H; [|reflexivity].
    destruct H as [v Hv]. vm_compute in Hv. discriminate Hv.
Defined.
